(** * Host-side verifier for H-Gate attestation packets and signed images

    A shallow embedding of [tools/verify_attestation.py] and the proofs of
    the properties its specification states about it.

    The script is a Python program: its two entry points print diagnostics
    on standard output, return a [bool], and let the exceptions they do not
    catch propagate.  They are modelled in a small monad [Py] that threads
    the process' world (standard output, read-only file system) and carries
    an outcome that is either a returned value or a raised exception.

    The two cryptographic primitives the script takes from libraries,
    Ed25519 verification (PyNaCl over libsodium) and SHA-256 (hashlib), are
    the fields of the class [Primitives]: every theorem holds for every
    instance of it, and so for the real ones. *)

From Stdlib Require Import List String Ascii NArith Arith Bool Lia DecimalString.
From Stdlib.Strings Require Import Byte.
Import ListNotations.

Set Implicit Arguments.

(* ================================================================== *)
(** ** Python values: [bytes], [str], slices, formatting *)
(* ================================================================== *)

Definition bytes := list byte.

(** [b[i:j]] for literal bounds [0 <= i <= j]: the slice is cut short, or
    empty, where the buffer ends. *)
Definition slice (b : bytes) (i j : nat) : bytes := firstn (j - i) (skipn i b).

(** [a == b] on [bytes]. *)
Definition bytes_eqb (a b : bytes) : bool :=
  if list_eq_dec byte_eq_dec a b then true else false.

(** A bytes literal such as [b"HGAT"]. *)
Definition b_lit (s : string) : bytes := list_byte_of_string s.

Definition hexdigits : string := "0123456789abcdef".

Definition hex_digit (n : N) : ascii :=
  match String.get (N.to_nat n) hexdigits with
  | Some c => c
  | None => "?"%char
  end.

Definition hex_of_byte (b : byte) : string :=
  String (hex_digit (Byte.to_N b / 16)) (String (hex_digit (Byte.to_N b mod 16)) EmptyString).

(** [b.hex()]: two lower-case digits per byte. *)
Definition bytes_hex (b : bytes) : string := String.concat "" (map hex_of_byte b).

(** [Py_ISSPACE]: the blanks [bytes.fromhex] skips between two bytes. *)
Definition is_space (c : ascii) : bool :=
  let n := N_of_ascii c in
  ((9 <=? n) && (n <=? 13) || (n =? 32))%N.

Definition hex_value (c : ascii) : option N :=
  let n := N_of_ascii c in
  if ((48 <=? n) && (n <=? 57))%N then Some (n - 48)%N
  else if ((97 <=? n) && (n <=? 102))%N then Some (n - 87)%N
  else if ((65 <=? n) && (n <=? 70))%N then Some (n - 55)%N
  else None.

Definition byte_of_nibbles (hi lo : N) : byte := byte_of_ascii (ascii_of_N (16 * hi + lo)).

(** [bytes.fromhex(s)]: pairs of hexadecimal digits, blanks allowed between
    pairs; [None] stands for the [ValueError] Python raises on anything
    else (a character that is no digit, a digit left alone). *)
Fixpoint bytes_fromhex (s : string) : option bytes :=
  match s with
  | EmptyString => Some []
  | String c rest =>
      if is_space c then bytes_fromhex rest
      else
        match rest with
        | EmptyString => None
        | String d rest' =>
            match hex_value c, hex_value d with
            | Some hi, Some lo =>
                match bytes_fromhex rest' with
                | Some bs => Some (byte_of_nibbles hi lo :: bs)
                | None => None
                end
            | _, _ => None
            end
        end
  end.

(** The unsigned little-endian value of a byte string. *)
Fixpoint le_to_N (b : bytes) : N :=
  match b with
  | [] => 0
  | x :: rest => Byte.to_N x + 256 * le_to_N rest
  end%N.

(** [struct.unpack_from("<Q", buf, offset)[0]]; [None] stands for the
    [struct.error] raised when fewer than 8 bytes follow [offset]. *)
Definition unpack_from_Q (buf : bytes) (offset : nat) : option N :=
  if List.length buf - offset <? 8 then None
  else Some (le_to_N (slice buf offset (offset + 8))).

(** [str(n)] for a non-negative integer. *)
Definition str_of_N (n : N) : string := NilZero.string_of_uint (N.to_uint n).

Definition squote : ascii := ascii_of_nat 39.
Definition dquote : ascii := ascii_of_nat 34.
Definition backslash : ascii := ascii_of_nat 92.

Definition repr_byte (quote : ascii) (b : byte) : string :=
  let c := ascii_of_byte b in
  let n := Byte.to_N b in
  if (Ascii.eqb c quote || Ascii.eqb c backslash)%bool then String backslash (String c EmptyString)
  else if (n =? 9)%N then String backslash "t"
  else if (n =? 10)%N then String backslash "n"
  else if (n =? 13)%N then String backslash "r"
  else if ((n <? 32) || (127 <=? n))%N then String backslash (String "x"%char (hex_of_byte b))
  else String c EmptyString.

(** [repr(b)], what an f-string prints for a [bytes] value: [b'...'], in
    double quotes when the value holds a single quote and no double one. *)
Definition bytes_repr (b : bytes) : string :=
  let has q := existsb (fun x => Ascii.eqb (ascii_of_byte x) q) b in
  let quote := if (has squote && negb (has dquote))%bool then dquote else squote in
  String "b"%char (String quote (String.concat "" (map (repr_byte quote) b) ++ String quote EmptyString)).

(* ================================================================== *)
(** ** The process: world, exceptions, the [Py] monad *)
(* ================================================================== *)

(** What a call can observe or change outside its arguments: the lines
    printed so far and the files it may open. *)
Record World := mkWorld {
  stdout : list string;
  files : string -> option bytes
}.

Inductive exn :=
| ValueError          (* bytes.fromhex, and nacl.exceptions.ValueError *)
| BadSignatureError   (* nacl.exceptions.BadSignatureError *)
| StructError         (* struct.error *)
| OSError.            (* open() on a path that cannot be read *)

Definition exn_eqb (a b : exn) : bool :=
  match a, b with
  | ValueError, ValueError | BadSignatureError, BadSignatureError
  | StructError, StructError | OSError, OSError => true
  | _, _ => false
  end.

Inductive outcome (A : Type) :=
| Return (a : A)
| Raise (e : exn).

Arguments Raise {A} e.

Definition Py (A : Type) := World -> outcome A * World.

Definition ret {A} (a : A) : Py A := fun w => (Return a, w).

Definition bind {A B} (m : Py A) (k : A -> Py B) : Py B :=
  fun w =>
    match m w with
    | (Return a, w') => k a w'
    | (Raise e, w') => (Raise e, w')
    end.

Definition raise {A} (e : exn) : Py A := fun w => (Raise e, w).

(** [try: body  except E: handler]: only [E] is caught; what the body
    printed before raising stays printed. *)
Definition try_except {A} (body : Py A) (E : exn) (handler : Py A) : Py A :=
  fun w =>
    match body w with
    | (Raise e, w') => if exn_eqb e E then handler w' else (Raise e, w')
    | r => r
    end.

(** [print(line)]. *)
Definition print (line : string) : Py unit :=
  fun w => (Return tt, mkWorld (stdout w ++ [line]) (files w)).

(** An optional library result, [None] raising [e]. *)
Definition or_raise {A} (o : option A) (e : exn) : Py A :=
  match o with
  | Some a => ret a
  | None => raise e
  end.

Declare Scope py_scope.
Delimit Scope py_scope with py.
Notation "x <- m ;; k" := (bind m (fun x => k))
  (at level 100, m at next level, right associativity) : py_scope.
Notation "m ;; k" := (bind m (fun _ => k))
  (at level 100, right associativity) : py_scope.
Open Scope py_scope.
Open Scope string_scope.

(** A file opened with [open(path, "rb")]: its content and the position
    of the next read. *)
Record file := mkFile {
  data : bytes;
  pos : nat
}.

Definition open_rb (path : string) : Py file :=
  fun w =>
    match files w path with
    | Some d => (Return (mkFile d 0), w)
    | None => (Raise OSError, w)
    end.

(** [f.read(n)]: at most [n] bytes from the position, which advances. *)
Definition read (f : file) (n : nat) : bytes * file :=
  let chunk := firstn n (skipn (pos f) (data f)) in
  (chunk, mkFile (data f) (pos f + List.length chunk)).

(** [f.read()]: everything from the position on. *)
Definition read_all (f : file) : bytes * file :=
  let chunk := skipn (pos f) (data f) in
  (chunk, mkFile (data f) (pos f + List.length chunk)).

(* ================================================================== *)
(** ** The libraries the script calls *)
(* ================================================================== *)

(** The two primitives behind the library calls.  [ed25519_verify pk m s]
    is libsodium's answer to "is [s] a signature of [m] under [pk]?" on a
    32-byte key and a 64-byte signature; [sha256 m] is
    [hashlib.sha256(m).digest()].  Both are functions of their arguments. *)
Class Primitives := {
  ed25519_verify : bytes -> bytes -> bytes -> bool;
  sha256 : bytes -> bytes
}.

(** [nacl.signing.VerifyKey]: the object holds the raw key. *)
Record verify_key := mkVerifyKey {
  vk_key : bytes
}.

(** [VerifyKey(key)]: PyNaCl raises its [ValueError] unless the key is
    [crypto_sign_PUBLICKEYBYTES = 32] bytes long. *)
Definition VerifyKey (key : bytes) : Py verify_key :=
  if (List.length key =? 32)%nat then ret (mkVerifyKey key) else raise ValueError.

(** [vk.verify(smessage, signature)] with a detached signature: PyNaCl
    raises its [ValueError] unless the signature is [crypto_sign_BYTES = 64]
    bytes long, and [BadSignatureError] when libsodium rejects it; otherwise
    the message is returned. *)
Definition VerifyKey_verify `{Primitives} (vk : verify_key) (smessage signature : bytes)
  : Py bytes :=
  if negb (List.length signature =? 64)%nat then raise ValueError
  else if ed25519_verify (vk_key vk) smessage signature then ret smessage
  else raise BadSignatureError.

(* ================================================================== *)
(** ** tools/verify_attestation.py *)
(* ================================================================== *)

(** [def verify_attestation(pubkey_hex: str, packet: bytes, sig: bytes) -> bool] *)
Definition verify_attestation `{Primitives} (pubkey_hex : string) (packet sig : bytes)
  : Py bool :=
  key <- or_raise (bytes_fromhex pubkey_hex) ValueError ;;
  vk <- VerifyKey key ;;
  try_except
    (VerifyKey_verify vk packet sig ;;
     if (List.length packet <? 40)%nat then
       print "❌ Attestation packet too short." ;;
       ret false
     else
       counter <- or_raise (unpack_from_Q packet 0) StructError ;;
       let pcr := bytes_hex (slice packet 8 40) in
       print "✅ Attestation Valid" ;;
       print ("   Counter : " ++ str_of_N counter) ;;
       print ("   PCR     : " ++ pcr) ;;
       ret true)
    BadSignatureError
    (print "❌ CRITICAL: Attestation signature mismatch. H-Gate trust broken." ;;
     ret false).

(** [def verify_image(pubkey_hex: str, image_path: str) -> bool] *)
Definition verify_image `{Primitives} (pubkey_hex image_path : string) : Py bool :=
  f <- open_rb image_path ;;
  let '(header, f) := read f (4 + 64 + 32) in
  if (List.length header <? 100)%nat then
    print "❌ Image header too short." ;;
    ret false
  else
    let magic := slice header 0 4 in
    if negb (bytes_eqb magic (b_lit "HGAT")) then
      print ("❌ Bad magic: " ++ bytes_repr magic) ;;
      ret false
    else
      let sig := slice header 4 68 in
      let payload_hash := slice header 68 100 in
      let '(payload, _) := read_all f in
      let computed := sha256 payload in
      if negb (bytes_eqb computed payload_hash) then
        print "❌ Payload hash mismatch." ;;
        ret false
      else
        key <- or_raise (bytes_fromhex pubkey_hex) ValueError ;;
        vk <- VerifyKey key ;;
        try_except
          (VerifyKey_verify vk payload_hash sig ;;
           print ("✅ Image Verified: " ++ image_path) ;;
           print ("   Payload SHA-256: " ++ bytes_hex computed) ;;
           ret true)
          BadSignatureError
          (print ("❌ Image signature invalid: " ++ image_path) ;;
           ret false).

(* ================================================================== *)
(** ** What a caller observes, and the specification's error kinds *)
(* ================================================================== *)

(** The world after [lines] were printed. *)
Definition emit (w : World) (lines : list string) : World :=
  mkWorld (stdout w ++ lines) (files w).

(** What one call shows: its outcome and the lines it printed. *)
Definition run {A} (m : Py A) (w : World) : outcome A * list string :=
  let '(r, w') := m w in (r, skipn (List.length (stdout w)) (stdout w')).

(** The error taxonomy of the specification. *)
Inductive ErrorKind :=
| MalformedKeyOrSignature
| TruncatedPacket
| SignatureMismatch
| CounterRegression
| TruncatedHeader
| BadMagic
| PayloadHashMismatch.

(** The kind a diagnostic line of the script stands for.  The script has no
    line for [MalformedKeyOrSignature] and none for [CounterRegression]. *)
Definition kind_of_line (line : string) : option ErrorKind :=
  if (line =? "❌ Attestation packet too short.") then Some TruncatedPacket
  else if (line =? "❌ CRITICAL: Attestation signature mismatch. H-Gate trust broken.")
  then Some SignatureMismatch
  else if String.prefix "❌ Image signature invalid: " line then Some SignatureMismatch
  else if (line =? "❌ Image header too short.") then Some TruncatedHeader
  else if String.prefix "❌ Bad magic: " line then Some BadMagic
  else if (line =? "❌ Payload hash mismatch.") then Some PayloadHashMismatch
  else None.

(** The failure a caller is told of: the call returned [False] after one
    diagnostic line, and the line names the kind. *)
Definition failure_kind (obs : outcome bool * list string) : option ErrorKind :=
  match obs with
  | (Return false, [line]) => kind_of_line line
  | _ => None
  end.

(** A detached signature the library accepts, and one it rejects after
    accepting the lengths. *)
Definition signature_valid `{Primitives} (key message sig : bytes) : Prop :=
  List.length key = 32 /\ List.length sig = 64 /\ ed25519_verify key message sig = true.

Definition signature_invalid `{Primitives} (key message sig : bytes) : Prop :=
  List.length key = 32 /\ List.length sig = 64 /\ ed25519_verify key message sig = false.

(** The layout of a signed image. *)
Definition image_of (magic sig payload_hash payload : bytes) : bytes :=
  (magic ++ sig ++ payload_hash ++ payload)%list.

(** A file system given by the list of its files. *)
Definition disk (entries : list (string * bytes)) : string -> option bytes :=
  fun path =>
    match find (fun e => fst e =? path) entries with
    | Some e => Some (snd e)
    | None => None
    end.

(* ================================================================== *)
(** ** A test double and sample inputs *)
(* ================================================================== *)

(** A stand-in for the two primitives, to run the verifier on concrete
    inputs: a "signature" is the key followed by the message, cut or padded
    to 64 bytes; a "digest" is the message cut or padded to 32 bytes. *)
Module Stub.

Definition sign (key message : bytes) : bytes :=
  firstn 64 (key ++ message ++ repeat x00 64)%list.

Definition digest (message : bytes) : bytes :=
  firstn 32 (message ++ repeat x00 32)%list.

Definition primitives : Primitives :=
  {| ed25519_verify := fun key message sig => bytes_eqb sig (sign key message);
     sha256 := digest |}.

(** Its key pairs: the public key is the private one cut or padded to 32
    bytes, and signing goes through it. *)
Definition public_key (private_key : bytes) : bytes :=
  firstn 32 (private_key ++ repeat x00 32)%list.

Definition sign_with (private_key message : bytes) : bytes :=
  sign (public_key private_key) message.

End Stub.

Module Sample.

Definition pubkey_hex : string :=
  "000102030405060708090a0b0c0d0e0f101112131415161718191a1b1c1d1e1f".

Definition key : bytes :=
  [x00; x01; x02; x03; x04; x05; x06; x07; x08; x09; x0a; x0b; x0c; x0d; x0e; x0f;
   x10; x11; x12; x13; x14; x15; x16; x17; x18; x19; x1a; x1b; x1c; x1d; x1e; x1f].

(** Counter 5, little-endian, then a PCR of 32 bytes [0xAA]. *)
Definition packet : bytes :=
  ([x05; x00; x00; x00; x00; x00; x00; x00] ++ repeat xaa 32)%list.

Definition good_sig : bytes := Stub.sign key packet.

Definition bad_sig : bytes := repeat xff 64.

Definition short_packet : bytes := [x05; x00; x00; x00].

Definition short_key_hex : string := "00".

Definition payload : bytes := b_lit "boot image".

(** A well-formed signed image of [payload]. *)
Definition image : bytes :=
  image_of (b_lit "HGAT") (Stub.sign key (Stub.digest payload)) (Stub.digest payload) payload.

(** The same header in front of another payload. *)
Definition tampered_image : bytes :=
  image_of (b_lit "HGAT") (Stub.sign key (Stub.digest payload)) (Stub.digest payload)
    (b_lit "b00t image").

(** The same image under another magic. *)
Definition bad_magic_image : bytes :=
  image_of (b_lit "HGAX") (Stub.sign key (Stub.digest payload)) (Stub.digest payload) payload.

(** A file that ends inside the header. *)
Definition truncated_image : bytes := b_lit "HGAT".

(** A signed image with no payload: 100 bytes. *)
Definition header_only_image : bytes :=
  image_of (b_lit "HGAT") (Stub.sign key (Stub.digest [])) (Stub.digest []) [].

Definition world : World :=
  mkWorld []
    (disk [ ("boot.img", image); ("tampered.img", tampered_image);
            ("magic.img", bad_magic_image); ("short.img", truncated_image);
            ("empty.img", header_only_image) ]).

End Sample.

(** The three lines of an accepted attestation. *)
Definition attestation_report (packet : bytes) : list string :=
  [ "✅ Attestation Valid";
    "   Counter : " ++ str_of_N (le_to_N (slice packet 0 8));
    "   PCR     : " ++ bytes_hex (slice packet 8 40) ].

(** The two lines of an accepted image. *)
Definition image_report `{Primitives} (image_path : string) (payload : bytes) : list string :=
  [ "✅ Image Verified: " ++ image_path;
    "   Payload SHA-256: " ++ bytes_hex (sha256 payload) ].

(* ================================================================== *)
(** ** The command line *)
(* ================================================================== *)

(** [sys.exit(code)] where the script calls it: as the last statement of a
    branch of the main block, outside any [try].  The value returned by
    [main] below is the code [SystemExit] carries to the interpreter. *)
Definition sys_exit (code : nat) : Py nat := ret code.

(** [sys.argv[i]].  Every index the script reads is below a length it has
    just tested, so the default is never the value read. *)
Definition argv_at (argv : list string) (i : nat) : string := nth i argv "".

(** The block under [if __name__ == "__main__":], as a function of
    [sys.argv].  Arguments of a call are evaluated from left to right,
    before the call. *)
Definition main `{Primitives} (argv : list string) : Py nat :=
  if (List.length argv <? 2)%nat then
    print "Usage:" ;;
    print "  verify_attestation.py attest <pubkey_hex> <packet_hex> <sig_hex>" ;;
    print "  verify_attestation.py image  <pubkey_hex> <image_path>" ;;
    sys_exit 1
  else
    let cmd := argv_at argv 1 in
    if ((cmd =? "attest") && (List.length argv =? 5)%nat)%bool then
      packet <- or_raise (bytes_fromhex (argv_at argv 3)) ValueError ;;
      sig <- or_raise (bytes_fromhex (argv_at argv 4)) ValueError ;;
      ok <- verify_attestation (argv_at argv 2) packet sig ;;
      sys_exit (if ok then 0 else 1)
    else if ((cmd =? "image") && (List.length argv =? 4)%nat)%bool then
      ok <- verify_image (argv_at argv 2) (argv_at argv 3) ;;
      sys_exit (if ok then 0 else 1)
    else
      print "Invalid arguments." ;;
      sys_exit 1.

(** The status the process ends with: the code given to [sys.exit], and 1
    when an exception reaches the interpreter. *)
Definition exit_status (o : outcome nat) : nat :=
  match o with
  | Return code => code
  | Raise _ => 1
  end.

(** The three lines printed when no command is given. *)
Definition usage : list string :=
  [ "Usage:";
    "  verify_attestation.py attest <pubkey_hex> <packet_hex> <sig_hex>";
    "  verify_attestation.py image  <pubkey_hex> <image_path>" ].

(** [n.to_bytes(len, "little")], the low [len] bytes of [n]. *)
Fixpoint le_bytes (len : nat) (n : N) : bytes :=
  match len with
  | 0 => []
  | S len' => byte_of_ascii (ascii_of_N (n mod 256)) :: le_bytes len' (n / 256)
  end.

(** [struct.pack("<Q", n)], the inverse of the script's
    [struct.unpack_from("<Q", ...)]: what a device writes in front of its
    packet.  [None] stands for the [struct.error] on a value that does not
    fit 64 bits. *)
Definition pack_Q (n : N) : option bytes :=
  if (n <? 2 ^ 64)%N then Some (le_bytes 8 n) else None.

(** More inputs for the test double. *)
Module Cli.

Definition prog : string := "verify_attestation.py".

(** The sample packet followed by two reserved bytes. *)
Definition long_packet : bytes := (Sample.packet ++ [x01; x02])%list.

(** The largest counter, [2^64 - 1], in front of a PCR of 32 bytes [0x11]. *)
Definition max_counter_packet : bytes := (repeat xff 8 ++ repeat x11 32)%list.

(** A well-formed image whose signature field is 64 bytes [0xFF]. *)
Definition forged_image : bytes :=
  image_of (b_lit "HGAT") (repeat xff 64) (Stub.digest Sample.payload) Sample.payload.

(** A world that has only [forged.img] and [boot.img], and has printed a
    line already. *)
Definition world : World :=
  mkWorld ["earlier output"]
    (disk [ ("forged.img", forged_image); ("boot.img", Sample.image) ]).

End Cli.

(* ================================================================== *)
(** ** Running the monad *)
(* ================================================================== *)

(** Unfolds the monad's operations and the library wrappers, and nothing
    of the data they carry. *)
Ltac py_unfold :=
  cbv beta iota zeta delta
    [bind ret raise or_raise try_except print VerifyKey VerifyKey_verify
     open_rb read read_all vk_key data pos exn_eqb negb].

Lemma emit_nil w : emit w [] = w.
Proof. destruct w; unfold emit; simpl; now rewrite app_nil_r. Qed.

Lemma emit_emit w l1 l2 : emit (emit w l1) l2 = emit w (l1 ++ l2)%list.
Proof. unfold emit; simpl; now rewrite <- app_assoc. Qed.

Lemma skipn_past_prefix {A} (l l' : list A) : skipn (List.length l) (l ++ l') = l'.
Proof. induction l; simpl; auto. Qed.

Lemma run_emit {A} (m : Py A) w r lines :
  m w = (r, emit w lines) -> run m w = (r, lines).
Proof.
  unfold run; intros ->; simpl. now rewrite skipn_past_prefix.
Qed.

Lemma run_silent {A} (m : Py A) w r : m w = (r, w) -> run m w = (r, []).
Proof. intros E; apply run_emit; now rewrite emit_nil. Qed.

(* ================================================================== *)
(** ** verify_attestation, case by case *)
(* ================================================================== *)

Section Attestation.

Context {P : Primitives}.

Lemma unpack_from_Q_long packet :
  40 <= List.length packet -> unpack_from_Q packet 0 = Some (le_to_N (slice packet 0 8)).
Proof.
  intros L. unfold unpack_from_Q.
  destruct (Nat.ltb_spec (List.length packet - 0) 8); [lia | reflexivity].
Qed.

(** Every path through [verify_attestation]: what it returns or raises,
    and what it prints, from its arguments alone. *)
Lemma verify_attestation_cases pubkey_hex packet sig w :
  verify_attestation pubkey_hex packet sig w =
  match bytes_fromhex pubkey_hex with
  | None => (Raise ValueError, w)
  | Some key =>
      if negb (List.length key =? 32)%nat then (Raise ValueError, w)
      else if negb (List.length sig =? 64)%nat then (Raise ValueError, w)
      else if ed25519_verify key packet sig then
        if (List.length packet <? 40)%nat
        then (Return false, emit w ["❌ Attestation packet too short."])
        else (Return true, emit w (attestation_report packet))
      else
        (Return false,
         emit w ["❌ CRITICAL: Attestation signature mismatch. H-Gate trust broken."])
  end.
Proof.
  destruct (bytes_fromhex pubkey_hex) as [key|] eqn:Hkey;
    [destruct (List.length key =? 32)%nat eqn:Hlen;
     [destruct (List.length sig =? 64)%nat eqn:Hsig;
      [destruct (ed25519_verify key packet sig) eqn:Hver;
       [destruct (Nat.ltb_spec (List.length packet) 40) as [L|L]|]|]|]|];
    unfold verify_attestation; rewrite Hkey; py_unfold;
    rewrite ?Hlen; py_unfold; rewrite ?Hsig; py_unfold; rewrite ?Hver; py_unfold;
    try reflexivity.
  - apply Nat.ltb_lt in L. rewrite L. reflexivity.
  - rewrite (unpack_from_Q_long _ L). apply Nat.ltb_ge in L. rewrite L. py_unfold.
    unfold emit, attestation_report; cbn [stdout files].
    rewrite <- !app_assoc. reflexivity.
Qed.

End Attestation.

(* ================================================================== *)
(** ** verify_image, case by case *)
(* ================================================================== *)

Lemma slice_firstn (b : bytes) n i j : j <= n -> slice (firstn n b) i j = slice b i j.
Proof.
  intros L. unfold slice.
  rewrite skipn_firstn_comm, firstn_firstn.
  f_equal. lia.
Qed.

Lemma slice_length (b : bytes) i j : j <= List.length b -> List.length (slice b i j) = j - i.
Proof.
  intros L. unfold slice. rewrite length_firstn, length_skipn. lia.
Qed.

Lemma slice_0 (b : bytes) j : slice b 0 j = firstn j b.
Proof. unfold slice. now rewrite Nat.sub_0_r. Qed.

Lemma bytes_eqb_eq a b : bytes_eqb a b = true <-> a = b.
Proof.
  unfold bytes_eqb. destruct (list_eq_dec byte_eq_dec a b); split; auto; discriminate.
Qed.

Lemma bytes_eqb_neq a b : bytes_eqb a b = false <-> a <> b.
Proof.
  unfold bytes_eqb. destruct (list_eq_dec byte_eq_dec a b); split; auto; try discriminate.
  intros N; now elim N.
Qed.

Section Image.

Context {P : Primitives}.

(** Every path through [verify_image], in the order the script takes
    them. *)
Lemma verify_image_cases pubkey_hex image_path w :
  verify_image pubkey_hex image_path w =
  match files w image_path with
  | None => (Raise OSError, w)
  | Some content =>
      if (List.length content <? 100)%nat
      then (Return false, emit w ["❌ Image header too short."])
      else if negb (bytes_eqb (slice content 0 4) (b_lit "HGAT"))
      then (Return false, emit w ["❌ Bad magic: " ++ bytes_repr (slice content 0 4)])
      else if negb (bytes_eqb (sha256 (skipn 100 content)) (slice content 68 100))
      then (Return false, emit w ["❌ Payload hash mismatch."])
      else
        match bytes_fromhex pubkey_hex with
        | None => (Raise ValueError, w)
        | Some key =>
            if negb (List.length key =? 32)%nat then (Raise ValueError, w)
            else if ed25519_verify key (slice content 68 100) (slice content 4 68)
            then (Return true, emit w (image_report image_path (skipn 100 content)))
            else (Return false, emit w ["❌ Image signature invalid: " ++ image_path])
        end
  end.
Proof.
  unfold verify_image. py_unfold.
  destruct (files w image_path) as [content|]; [|reflexivity].
  py_unfold. change (4 + 64 + 32) with 100.
  change (skipn 0 content) with content. cbn [Nat.add].
  destruct (Nat.ltb_spec (List.length content) 100) as [L|L].
  - assert (E : (List.length (firstn 100 content) <? 100)%nat = true)
      by (apply Nat.ltb_lt; rewrite length_firstn; lia).
    rewrite E. reflexivity.
  - assert (E : List.length (firstn 100 content) = 100) by (rewrite length_firstn; lia).
    rewrite E. change (100 <? 100)%nat with false. cbv iota.
    rewrite !slice_firstn by lia.
    destruct (bytes_eqb (slice content 0 4) (b_lit "HGAT")); py_unfold; [|reflexivity].
    destruct (bytes_eqb (sha256 (skipn 100 content)) (slice content 68 100));
      py_unfold; [|reflexivity].
    destruct (bytes_fromhex pubkey_hex) as [key|]; py_unfold; [|reflexivity].
    destruct (List.length key =? 32)%nat; py_unfold; [|reflexivity].
    rewrite slice_length by lia. change (68 - 4 =? 64)%nat with true. py_unfold.
    destruct (ed25519_verify key (slice content 68 100) (slice content 4 68));
      py_unfold; [|reflexivity].
    unfold emit, image_report; cbn [stdout files].
    rewrite <- !app_assoc. reflexivity.
Qed.

End Image.

(* ================================================================== *)
(** ** Attestation packets: the properties *)
(* ================================================================== *)

Lemma le_to_N_bound (b : bytes) : (le_to_N b < 256 ^ N.of_nat (List.length b))%N.
Proof.
  induction b as [|x b IH].
  - reflexivity.
  - cbn [le_to_N List.length]. rewrite Nat2N.inj_succ, N.pow_succ_r'.
    pose proof (to_N_bounded x). lia.
Qed.

(** An accepted packet: the outcome and the whole report. *)
Lemma verify_attestation_accepts_any `{Primitives} pubkey_hex key packet sig w :
  bytes_fromhex pubkey_hex = Some key ->
  signature_valid key packet sig ->
  40 <= List.length packet ->
  verify_attestation pubkey_hex packet sig w
  = (Return true, emit w (attestation_report packet)).
Proof.
  intros Hkey (Hk & Hs & Hv) L.
  rewrite verify_attestation_cases, Hkey, Hk, Hs, Hv.
  apply Nat.ltb_ge in L. now rewrite L.
Qed.

Section AttestationProperties.

Context {P : Primitives}.

Variables (pubkey_hex : string) (key packet sig : bytes).

Hypothesis key_decoded : bytes_fromhex pubkey_hex = Some key.

Lemma verify_attestation_accepts w :
  signature_valid key packet sig ->
  40 <= List.length packet ->
  verify_attestation pubkey_hex packet sig w
  = (Return true, emit w (attestation_report packet)).
Proof. now apply (@verify_attestation_accepts_any _ _ _ _ _ _ key_decoded). Qed.

(** A malformed key or signature: PyNaCl's [ValueError] goes through. *)
Lemma verify_attestation_raises w :
  List.length key <> 32 \/ List.length sig <> 64 ->
  run (verify_attestation pubkey_hex packet sig) w = (Raise ValueError, []).
Proof.
  intros H. apply run_silent. rewrite verify_attestation_cases, key_decoded.
  destruct (Nat.eqb_spec (List.length key) 32) as [Hk|Hk]; [|reflexivity].
  destruct (Nat.eqb_spec (List.length sig) 64) as [Hs|Hs]; [|reflexivity].
  destruct H; contradiction.
Qed.

(** C4. A packet of at least 40 bytes with a valid signature is accepted:
    the call returns [True], and the counter it reports is the unsigned
    little-endian 64-bit integer of bytes 0-7 and the PCR it reports is
    bytes 8-39 in hexadecimal, whatever the counter and whatever was
    verified before. *)
Theorem valid_attestation_reports_counter_and_pcr w :
  signature_valid key packet sig ->
  40 <= List.length packet ->
  run (verify_attestation pubkey_hex packet sig) w
  = (Return true,
     [ "✅ Attestation Valid";
       "   Counter : " ++ str_of_N (le_to_N (firstn 8 packet));
       "   PCR     : " ++ bytes_hex (firstn 32 (skipn 8 packet)) ])
  /\ (le_to_N (firstn 8 packet) < 2 ^ 64)%N.
Proof.
  intros V L. split.
  - apply run_emit. now rewrite verify_attestation_accepts.
  - pose proof (le_to_N_bound (firstn 8 packet)) as B.
    rewrite length_firstn, Nat.min_l in B by lia. exact B.
Qed.

(** C1 (the script against its own header, which lists "monotonic counter
    non-regression" among what it verifies).  The script keeps no record of
    the counters it accepted: after a valid packet, any valid packet under
    the same key is accepted, whatever its counter, lower, equal or higher.
    In particular the same packet and signature verified twice in a row are
    accepted twice, and the second call is no [CounterRegression] failure. *)
Theorem replayed_attestation_is_accepted packet' sig' w :
  signature_valid key packet sig ->
  40 <= List.length packet ->
  signature_valid key packet' sig' ->
  40 <= List.length packet' ->
  let earlier := verify_attestation pubkey_hex packet sig in
  let later := verify_attestation pubkey_hex packet' sig' in
  run (first <- earlier ;; second <- later ;; ret (first, second)) w
  = (Return (true, true), (attestation_report packet ++ attestation_report packet')%list)
  /\ failure_kind (run later (snd (earlier w))) <> Some CounterRegression.
Proof.
  intros V L V' L' earlier later. split.
  - apply run_emit. unfold bind, earlier, later.
    rewrite (verify_attestation_accepts _ V L).
    rewrite (@verify_attestation_accepts_any _ _ _ _ _ _ key_decoded V' L').
    now rewrite emit_emit.
  - unfold earlier, later. rewrite (verify_attestation_accepts w V L). cbn [snd].
    erewrite run_emit by (now apply (@verify_attestation_accepts_any _ _ _ _ _ _ key_decoded)).
    discriminate.
Qed.

(** C2, as the script has it.  With a key and a signature of the right
    lengths, a packet shorter than 40 bytes is always refused with [False],
    but the signature is checked first: the failure is the truncated-packet
    one when the signature is valid and the signature-mismatch one when it
    is not. *)
Theorem short_packet_fails_after_signature_check w :
  List.length key = 32 ->
  List.length sig = 64 ->
  List.length packet < 40 ->
  run (verify_attestation pubkey_hex packet sig) w
  = (Return false,
     [ if ed25519_verify key packet sig
       then "❌ Attestation packet too short."
       else "❌ CRITICAL: Attestation signature mismatch. H-Gate trust broken." ])
  /\ failure_kind (run (verify_attestation pubkey_hex packet sig) w)
     = Some (if ed25519_verify key packet sig then TruncatedPacket else SignatureMismatch).
Proof.
  intros Hk Hs L.
  assert (E : run (verify_attestation pubkey_hex packet sig) w
              = (Return false,
                 [ if ed25519_verify key packet sig
                   then "❌ Attestation packet too short."
                   else "❌ CRITICAL: Attestation signature mismatch. H-Gate trust broken." ])).
  { apply run_emit. rewrite verify_attestation_cases, key_decoded, Hk, Hs.
    apply Nat.ltb_lt in L. rewrite L.
    now destruct (ed25519_verify key packet sig). }
  split; [exact E|]. rewrite E.
  now destruct (ed25519_verify key packet sig).
Qed.

(** C3, as the script has it.  A key that is not 32 bytes long, or a
    signature that is not 64 bytes long, makes PyNaCl raise [ValueError];
    the script does not catch it: the call prints nothing and returns
    nothing, so no failure kind is reported. *)
Theorem malformed_key_or_signature_raises w :
  List.length key <> 32 \/ List.length sig <> 64 ->
  run (verify_attestation pubkey_hex packet sig) w = (Raise ValueError, [])
  /\ failure_kind (run (verify_attestation pubkey_hex packet sig) w) = None.
Proof.
  intros H. rewrite (verify_attestation_raises w H). now split.
Qed.

(** C5. A packet of at least 40 bytes whose signature is invalid is refused
    with [False] and the signature-mismatch line, and no other path of the
    call reports that kind: a caller told [SignatureMismatch] knows the
    signature was checked and rejected. *)
Theorem invalid_signature_is_signature_mismatch w :
  40 <= List.length packet ->
  (signature_invalid key packet sig ->
   run (verify_attestation pubkey_hex packet sig) w
   = (Return false,
      ["❌ CRITICAL: Attestation signature mismatch. H-Gate trust broken."]))
  /\ (failure_kind (run (verify_attestation pubkey_hex packet sig) w)
      = Some SignatureMismatch
      <-> signature_invalid key packet sig).
Proof.
  intros L.
  assert (Inv : signature_invalid key packet sig ->
                run (verify_attestation pubkey_hex packet sig) w
                = (Return false,
                   ["❌ CRITICAL: Attestation signature mismatch. H-Gate trust broken."])).
  { intros (Hk & Hs & Hv). apply run_emit.
    now rewrite verify_attestation_cases, key_decoded, Hk, Hs, Hv. }
  split; [exact Inv|]. split.
  - unfold signature_invalid.
    destruct (Nat.eqb_spec (List.length key) 32) as [Hk|Hk];
      [destruct (Nat.eqb_spec (List.length sig) 64) as [Hs|Hs];
       [destruct (ed25519_verify key packet sig) eqn:Hv|]|].
    + erewrite run_emit
        by (apply verify_attestation_accepts; [repeat split; assumption | exact L]).
      discriminate.
    + auto.
    + rewrite (verify_attestation_raises w (or_intror Hs)). discriminate.
    + rewrite (verify_attestation_raises w (or_introl Hk)). discriminate.
  - intros I. now rewrite (Inv I).
Qed.

End AttestationProperties.

Section Statelessness.

Context {P : Primitives}.

(** What a call of [verify_attestation] does to the world is to print: its
    outcome and its lines are fixed by its arguments. *)
Lemma verify_attestation_effect pubkey_hex packet sig :
  exists r lines, forall w,
    verify_attestation pubkey_hex packet sig w = (r, emit w lines).
Proof.
  destruct (bytes_fromhex pubkey_hex) as [key|] eqn:Hkey.
  - destruct (negb (List.length key =? 32)%nat) eqn:Hk;
      [|destruct (negb (List.length sig =? 64)%nat) eqn:Hs;
        [|destruct (ed25519_verify key packet sig) eqn:Hv;
          [destruct (List.length packet <? 40)%nat eqn:L|]]].
    all: eexists; eexists; intros w;
      rewrite verify_attestation_cases, Hkey, Hk, ?Hs, ?Hv, ?L;
      try reflexivity; now rewrite <- (emit_nil w) at 1.
  - exists (Raise ValueError), []. intros w.
    now rewrite verify_attestation_cases, Hkey, emit_nil.
Qed.

(** C9. [verify_attestation] is stateless and deterministic.  Two calls
    with the same arguments show the same outcome and print the same lines
    in whatever worlds they run; a call leaves the world as it found it but
    for the lines it printed; so a packet accepted once is accepted by
    every later identical call. *)
Theorem verify_attestation_stateless pubkey_hex packet sig w1 w2 :
  let call := verify_attestation pubkey_hex packet sig in
  run call w1 = run call w2
  /\ snd (call w1) = emit w1 (snd (run call w1))
  /\ (fst (call w1) = Return true -> fst (call w2) = Return true)
  /\ run call (snd (call w1)) = run call w1.
Proof.
  intros call.
  destruct (verify_attestation_effect pubkey_hex packet sig) as (r & lines & E).
  assert (R : forall w, run call w = (r, lines)) by (intros w; apply run_emit, E).
  unfold call in *. rewrite !R, !E. cbn [fst snd]. auto.
Qed.

End Statelessness.

(* ================================================================== *)
(** ** Signed images: the properties *)
(* ================================================================== *)

Lemma firstn_prefix {A} (a b : list A) n : List.length a = n -> firstn n (a ++ b) = a.
Proof.
  intros <-. rewrite firstn_app, Nat.sub_diag, firstn_all. cbn [firstn]. apply app_nil_r.
Qed.

Lemma skipn_prefix {A} (a b : list A) n : List.length a = n -> skipn n (a ++ b) = b.
Proof. intros <-. apply skipn_past_prefix. Qed.

(** The fields the script cuts out of an image laid out as [image_of]. *)
Lemma image_of_fields (magic sig payload_hash payload : bytes) :
  List.length magic = 4 ->
  List.length sig = 64 ->
  List.length payload_hash = 32 ->
  let content := image_of magic sig payload_hash payload in
  100 <= List.length content
  /\ slice content 0 4 = magic
  /\ slice content 4 68 = sig
  /\ slice content 68 100 = payload_hash
  /\ skipn 100 content = payload.
Proof.
  intros Hm Hs Hh content. unfold content, image_of, slice.
  repeat split.
  - rewrite !length_app. lia.
  - now apply firstn_prefix.
  - rewrite (skipn_prefix _ _ Hm). now apply firstn_prefix.
  - rewrite app_assoc, skipn_prefix by (rewrite length_app; lia).
    now apply firstn_prefix.
  - rewrite (app_assoc sig), app_assoc.
    apply skipn_prefix. rewrite !length_app. lia.
Qed.

Lemma kind_of_line_bad_magic rest : kind_of_line ("❌ Bad magic: " ++ rest) = Some BadMagic.
Proof. unfold kind_of_line. cbn. now destruct rest. Qed.

Section ImageProperties.

Context {P : Primitives}.

Variables (pubkey_hex image_path : string) (content : bytes) (w : World).

Hypothesis image_read : files w image_path = Some content.

(** C8. The structure of an image is checked first, in a fixed order: a
    file of less than 100 bytes is refused for its truncated header; a
    longer one whose first 4 bytes are not [HGAT] is refused for its magic.
    Neither answer depends on the key, on the digest or on the signature
    primitive: nothing has been hashed or verified yet. *)
Theorem image_structure_is_checked_first :
  (List.length content < 100 ->
   run (verify_image pubkey_hex image_path) w
   = (Return false, ["❌ Image header too short."])
   /\ failure_kind (run (verify_image pubkey_hex image_path) w) = Some TruncatedHeader)
  /\ (100 <= List.length content ->
      firstn 4 content <> b_lit "HGAT" ->
      run (verify_image pubkey_hex image_path) w
      = (Return false, ["❌ Bad magic: " ++ bytes_repr (firstn 4 content)])
      /\ failure_kind (run (verify_image pubkey_hex image_path) w) = Some BadMagic).
Proof.
  split.
  - intros L.
    assert (E : run (verify_image pubkey_hex image_path) w
                = (Return false, ["❌ Image header too short."])).
    { apply run_emit. rewrite verify_image_cases, image_read.
      apply Nat.ltb_lt in L. now rewrite L. }
    now rewrite E.
  - intros L M.
    assert (E : run (verify_image pubkey_hex image_path) w
                = (Return false, ["❌ Bad magic: " ++ bytes_repr (firstn 4 content)])).
    { apply run_emit. rewrite verify_image_cases, image_read.
      apply Nat.ltb_ge in L. rewrite L, slice_0.
      apply bytes_eqb_neq in M. now rewrite M. }
    rewrite E. split; [reflexivity|]. apply kind_of_line_bad_magic.
Qed.

(** C7. In a well-formed image whose payload does not hash to the digest
    stated in the header, the call fails with the payload-hash mismatch,
    whatever the key and whatever the signature primitive would have
    answered: the signature is not looked at.  When the digest does match,
    the verdict is the primitive's answer on the stated digest and the
    signature field, not on the payload. *)
Theorem payload_hash_is_checked_before_signature :
  100 <= List.length content ->
  firstn 4 content = b_lit "HGAT" ->
  (sha256 (skipn 100 content) <> slice content 68 100 ->
   run (verify_image pubkey_hex image_path) w
   = (Return false, ["❌ Payload hash mismatch."])
   /\ failure_kind (run (verify_image pubkey_hex image_path) w) = Some PayloadHashMismatch)
  /\ (sha256 (skipn 100 content) = slice content 68 100 ->
      forall key,
        bytes_fromhex pubkey_hex = Some key ->
        List.length key = 32 ->
        (fst (run (verify_image pubkey_hex image_path) w) = Return true
         <-> ed25519_verify key (slice content 68 100) (slice content 4 68) = true)).
Proof.
  intros L M. apply Nat.ltb_ge in L. apply bytes_eqb_eq in M. rewrite <- slice_0 in M.
  split.
  - intros H. apply bytes_eqb_neq in H.
    assert (E : run (verify_image pubkey_hex image_path) w
                = (Return false, ["❌ Payload hash mismatch."])).
    { apply run_emit. now rewrite verify_image_cases, image_read, L, M, H. }
    now rewrite E.
  - intros H key Hkey Hk. apply bytes_eqb_eq in H.
    destruct (ed25519_verify key (slice content 68 100) (slice content 4 68)) eqn:Hv.
    + erewrite run_emit
        by (now rewrite verify_image_cases, image_read, L, M, H, Hkey, Hk, Hv).
      now split.
    + erewrite run_emit
        by (now rewrite verify_image_cases, image_read, L, M, H, Hkey, Hk, Hv).
      split; discriminate.
Qed.

(** C10. An image of exactly 100 bytes is a header with an empty payload:
    the call succeeds exactly when the magic is [HGAT], the stated digest
    is the SHA-256 of the empty byte string, and the signature field is a
    valid signature of that digest under the key. *)
Theorem header_only_image_verdict :
  List.length content = 100 ->
  (fst (run (verify_image pubkey_hex image_path) w) = Return true
   <-> firstn 4 content = b_lit "HGAT"
       /\ slice content 68 100 = sha256 []
       /\ exists key,
            bytes_fromhex pubkey_hex = Some key
            /\ signature_valid key (sha256 []) (slice content 4 68)).
Proof.
  intros L.
  assert (Hp : skipn 100 content = []) by (apply skipn_all2; lia).
  assert (Hs : List.length (slice content 4 68) = 64) by (apply slice_length; lia).
  assert (E := verify_image_cases pubkey_hex image_path w).
  rewrite image_read, L, Hp, slice_0 in E. change (100 <? 100)%nat with false in E.
  cbv iota in E.
  unfold run. rewrite E. clear E.
  destruct (bytes_eqb (firstn 4 content) (b_lit "HGAT")) eqn:M; cbn [negb].
  2:{ apply bytes_eqb_neq in M. cbn [fst]. split; [discriminate | tauto]. }
  apply bytes_eqb_eq in M.
  destruct (bytes_eqb (sha256 []) (slice content 68 100)) eqn:H; cbn [negb].
  2:{ apply bytes_eqb_neq in H. cbn [fst]. split; [discriminate|].
      intros (_ & H' & _). now elim H. }
  apply bytes_eqb_eq in H.
  destruct (bytes_fromhex pubkey_hex) as [key|] eqn:Hkey.
  2:{ cbn [fst]. split; [discriminate|]. now intros (_ & _ & key & K & _). }
  destruct (Nat.eqb_spec (List.length key) 32) as [Hk|Hk]; cbn [negb].
  2:{ cbn [fst]. split; [discriminate|].
      intros (_ & _ & key' & K & Hk' & _). congruence. }
  rewrite <- H.
  destruct (ed25519_verify key (sha256 []) (slice content 4 68)) eqn:Hv; cbn [fst].
  - split; [|reflexivity]. intros _. repeat split; auto.
    exists key. repeat split; assumption.
  - split; [discriminate|].
    intros (_ & _ & key' & K & _ & _ & Hv'). congruence.
Qed.

End ImageProperties.

(** Decoding undoes encoding: [bytes.fromhex(b.hex()) == b]. *)
Lemma bytes_fromhex_hex_of_byte (x : byte) (rest : string) :
  bytes_fromhex (hex_of_byte x ++ rest)
  = match bytes_fromhex rest with
    | Some bs => Some (x :: bs)
    | None => None
    end.
Proof. destruct x; reflexivity. Qed.

Lemma concat_empty_cons (x : string) (xs : list string) :
  String.concat "" (x :: xs) = x ++ String.concat "" xs.
Proof.
  destruct xs as [|y ys]; cbn [String.concat].
  - induction x as [|c x IH]; cbn [String.append]; congruence.
  - reflexivity.
Qed.

Lemma bytes_fromhex_hex (b : bytes) : bytes_fromhex (bytes_hex b) = Some b.
Proof.
  unfold bytes_hex. induction b as [|x b IH].
  - reflexivity.
  - cbn [map]. now rewrite concat_empty_cons, bytes_fromhex_hex_of_byte, IH.
Qed.

(** A signed image that is laid out as the header says verifies. *)
Lemma verify_image_accepts `{Primitives} pubkey_hex image_path key sig payload w :
  bytes_fromhex pubkey_hex = Some key ->
  List.length (sha256 payload) = 32 ->
  signature_valid key (sha256 payload) sig ->
  files w image_path = Some (image_of (b_lit "HGAT") sig (sha256 payload) payload) ->
  verify_image pubkey_hex image_path w
  = (Return true, emit w (image_report image_path payload)).
Proof.
  intros Hkey Hh (Hk & Hs & Hv) Hfile.
  destruct (@image_of_fields (b_lit "HGAT") sig (sha256 payload) payload eq_refl Hs Hh)
    as (L & Fm & Fs & Fh & Fp).
  rewrite verify_image_cases, Hfile.
  apply Nat.ltb_ge in L. rewrite L, Fm, Fs, Fh, Fp, Hkey, Hk, Hv.
  now rewrite (proj2 (bytes_eqb_eq _ _) eq_refl), (proj2 (bytes_eqb_eq _ _) eq_refl).
Qed.

Section RoundTrip.

Context {P : Primitives}.

(** Key pairs and signing, the other half of the signature scheme: the
    public key of a private key, and the signature of a message under a
    private key. *)
Variables (public_key : bytes -> bytes) (sign : bytes -> bytes -> bytes).

(** Ed25519: keys are 32 bytes, signatures 64, and what a private key signs
    verifies under its public key.  SHA-256: digests are 32 bytes. *)
Hypothesis sign_verifies :
  forall private_key message,
    signature_valid (public_key private_key) message (sign private_key message).

Hypothesis sha256_length : forall message, List.length (sha256 message) = 32.

(** C6. Round trip.  For every payload and key pair: sign the SHA-256 of
    the payload with the private key, write the magic [HGAT], the
    signature, the digest and the payload to a file; [verify_image] under
    the public key returns [True] and reports the digest it computed, which
    is the digest of the payload. *)
Theorem signed_image_round_trip private_key payload image_path w :
  files w image_path
  = Some (image_of (b_lit "HGAT") (sign private_key (sha256 payload))
            (sha256 payload) payload) ->
  run (verify_image (bytes_hex (public_key private_key)) image_path) w
  = (Return true,
     [ "✅ Image Verified: " ++ image_path;
       "   Payload SHA-256: " ++ bytes_hex (sha256 payload) ]).
Proof.
  intros Hfile. apply run_emit.
  apply (@verify_image_accepts _ _ _ (public_key private_key)
           (sign private_key (sha256 payload)) payload w); auto.
  apply bytes_fromhex_hex.
Qed.

End RoundTrip.

(** The stand-in scheme is a scheme in that sense. *)
Lemma length_firstn_padded (b : bytes) n : List.length (firstn n (b ++ repeat x00 n)) = n.
Proof. rewrite length_firstn, length_app, repeat_length. lia. Qed.

Lemma stub_sign_verifies private_key message :
  @signature_valid Stub.primitives (Stub.public_key private_key) message
    (Stub.sign_with private_key message).
Proof.
  unfold signature_valid, Stub.public_key, Stub.sign_with, Stub.sign.
  split; [apply length_firstn_padded|].
  split; [rewrite app_assoc; apply length_firstn_padded|].
  now apply bytes_eqb_eq.
Qed.

Lemma stub_digest_length message : List.length (Stub.digest message) = 32.
Proof. apply length_firstn_padded. Qed.

(* ================================================================== *)
(** ** The properties on the sample inputs *)
(* ================================================================== *)

(** The specification's scenario: counter 5 and a PCR of 32 bytes [0xAA],
    correctly signed. *)
Lemma valid_attestation_sample :
  run (@verify_attestation Stub.primitives Sample.pubkey_hex Sample.packet Sample.good_sig)
    Sample.world
  = (Return true,
     [ "✅ Attestation Valid";
       "   Counter : 5";
       "   PCR     : aaaaaaaaaaaaaaaaaaaaaaaaaaaaaaaaaaaaaaaaaaaaaaaaaaaaaaaaaaaaaaaa" ])
  /\ (5 < 2 ^ 64)%N.
Proof.
  refine (@valid_attestation_reports_counter_and_pcr Stub.primitives
            Sample.pubkey_hex Sample.key Sample.packet Sample.good_sig _ Sample.world _ _).
  - reflexivity.
  - repeat split; reflexivity.
  - vm_compute; lia.
Defined.

(** The same packet and signature verified twice in a row. *)
Lemma replayed_attestation_sample :
  run (first <- @verify_attestation Stub.primitives Sample.pubkey_hex Sample.packet
                  Sample.good_sig ;;
       second <- @verify_attestation Stub.primitives Sample.pubkey_hex Sample.packet
                   Sample.good_sig ;;
       ret (first, second))
    Sample.world
  = (Return (true, true),
     [ "✅ Attestation Valid";
       "   Counter : 5";
       "   PCR     : aaaaaaaaaaaaaaaaaaaaaaaaaaaaaaaaaaaaaaaaaaaaaaaaaaaaaaaaaaaaaaaa";
       "✅ Attestation Valid";
       "   Counter : 5";
       "   PCR     : aaaaaaaaaaaaaaaaaaaaaaaaaaaaaaaaaaaaaaaaaaaaaaaaaaaaaaaaaaaaaaaa" ])
  /\ failure_kind
       (run (@verify_attestation Stub.primitives Sample.pubkey_hex Sample.packet
               Sample.good_sig)
          (snd (@verify_attestation Stub.primitives Sample.pubkey_hex Sample.packet
                  Sample.good_sig Sample.world)))
     <> Some CounterRegression.
Proof.
  refine (@replayed_attestation_is_accepted Stub.primitives
            Sample.pubkey_hex Sample.key Sample.packet Sample.good_sig _
            Sample.packet Sample.good_sig Sample.world _ _ _ _).
  - reflexivity.
  - repeat split; reflexivity.
  - vm_compute; lia.
  - repeat split; reflexivity.
  - vm_compute; lia.
Defined.

(** A truncated packet under a valid signature. *)
Lemma short_packet_sample :
  run (@verify_attestation Stub.primitives Sample.pubkey_hex Sample.short_packet
         (Stub.sign Sample.key Sample.short_packet))
    Sample.world
  = (Return false, ["❌ Attestation packet too short."])
  /\ failure_kind
       (run (@verify_attestation Stub.primitives Sample.pubkey_hex Sample.short_packet
               (Stub.sign Sample.key Sample.short_packet))
          Sample.world)
     = Some TruncatedPacket.
Proof.
  refine (@short_packet_fails_after_signature_check Stub.primitives
            Sample.pubkey_hex Sample.key Sample.short_packet
            (Stub.sign Sample.key Sample.short_packet) _ Sample.world _ _ _).
  - reflexivity.
  - reflexivity.
  - reflexivity.
  - vm_compute; lia.
Defined.

(** C2, refuted as stated: a truncated packet under an invalid signature is
    not refused as truncated; the signature mismatch is what is reported. *)
Lemma short_packet_bad_signature_counterexample :
  List.length Sample.short_packet < 40
  /\ @signature_invalid Stub.primitives Sample.key Sample.short_packet Sample.bad_sig
  /\ run (@verify_attestation Stub.primitives Sample.pubkey_hex Sample.short_packet
            Sample.bad_sig)
       Sample.world
     = (Return false,
        ["❌ CRITICAL: Attestation signature mismatch. H-Gate trust broken."])
  /\ failure_kind
       (run (@verify_attestation Stub.primitives Sample.pubkey_hex Sample.short_packet
               Sample.bad_sig)
          Sample.world)
     <> Some TruncatedPacket.
Proof.
  split; [vm_compute; lia|].
  split; [repeat split; reflexivity|].
  split; [reflexivity|].
  vm_compute. discriminate.
Qed.

(** A key of one byte. *)
Lemma malformed_key_sample :
  run (@verify_attestation Stub.primitives Sample.short_key_hex Sample.packet
         Sample.good_sig)
    Sample.world
  = (Raise ValueError, [])
  /\ failure_kind
       (run (@verify_attestation Stub.primitives Sample.short_key_hex Sample.packet
               Sample.good_sig)
          Sample.world)
     = None.
Proof.
  refine (@malformed_key_or_signature_raises Stub.primitives
            Sample.short_key_hex [x00] Sample.packet Sample.good_sig _ Sample.world _).
  - reflexivity.
  - left. vm_compute. lia.
Defined.

(** C3, refuted as stated: a key of one byte, and a signature of 63 bytes
    under a good key, each end the call with an uncaught [ValueError], not
    with a [MalformedKeyOrSignature] result. *)
Lemma malformed_input_counterexample :
  bytes_fromhex Sample.short_key_hex = Some [x00]
  /\ run (@verify_attestation Stub.primitives Sample.short_key_hex Sample.packet
            Sample.good_sig)
       Sample.world
     = (Raise ValueError, [])
  /\ List.length (firstn 63 Sample.good_sig) = 63
  /\ run (@verify_attestation Stub.primitives Sample.pubkey_hex Sample.packet
            (firstn 63 Sample.good_sig))
       Sample.world
     = (Raise ValueError, [])
  /\ failure_kind (@Raise bool ValueError, []) <> Some MalformedKeyOrSignature.
Proof.
  repeat split; try reflexivity. discriminate.
Qed.

(** A full packet under an invalid signature. *)
Lemma invalid_signature_sample :
  run (@verify_attestation Stub.primitives Sample.pubkey_hex Sample.packet Sample.bad_sig)
    Sample.world
  = (Return false, ["❌ CRITICAL: Attestation signature mismatch. H-Gate trust broken."])
  /\ failure_kind
       (run (@verify_attestation Stub.primitives Sample.pubkey_hex Sample.packet
               Sample.bad_sig)
          Sample.world)
     = Some SignatureMismatch.
Proof.
  assert (I : @signature_invalid Stub.primitives Sample.key Sample.packet Sample.bad_sig)
    by (repeat split; reflexivity).
  assert (L : 40 <= List.length Sample.packet) by (vm_compute; lia).
  destruct (@invalid_signature_is_signature_mismatch Stub.primitives
              Sample.pubkey_hex Sample.key Sample.packet Sample.bad_sig eq_refl
              Sample.world L) as [Run Kind].
  split; [exact (Run I) | exact (proj2 Kind I)].
Defined.

(** A signed image written out and read back. *)
Lemma signed_image_sample :
  Stub.public_key Sample.key = Sample.key
  /\ run (@verify_image Stub.primitives Sample.pubkey_hex "boot.img") Sample.world
     = (Return true,
        [ "✅ Image Verified: boot.img";
          "   Payload SHA-256: " ++ bytes_hex (Stub.digest Sample.payload) ]).
Proof.
  split; [reflexivity|].
  refine (@signed_image_round_trip Stub.primitives Stub.public_key Stub.sign_with
            stub_sign_verifies stub_digest_length
            Sample.key Sample.payload "boot.img" Sample.world _).
  reflexivity.
Defined.

(** A payload swapped under a header whose signature is valid for the
    digest the header states, beside the untouched image. *)
Lemma tampered_payload_sample :
  (@ed25519_verify Stub.primitives Sample.key
     (slice Sample.tampered_image 68 100) (slice Sample.tampered_image 4 68) = true
   /\ run (@verify_image Stub.primitives Sample.pubkey_hex "tampered.img") Sample.world
      = (Return false, ["❌ Payload hash mismatch."])
   /\ failure_kind
        (run (@verify_image Stub.primitives Sample.pubkey_hex "tampered.img") Sample.world)
      = Some PayloadHashMismatch)
  /\ fst (run (@verify_image Stub.primitives Sample.pubkey_hex "boot.img") Sample.world)
     = Return true.
Proof.
  assert (Lt : 100 <= List.length Sample.tampered_image) by (vm_compute; lia).
  assert (Li : 100 <= List.length Sample.image) by (vm_compute; lia).
  destruct (@payload_hash_is_checked_before_signature Stub.primitives
              Sample.pubkey_hex "tampered.img" Sample.tampered_image Sample.world
              eq_refl Lt eq_refl) as [Mismatch _].
  destruct (@payload_hash_is_checked_before_signature Stub.primitives
              Sample.pubkey_hex "boot.img" Sample.image Sample.world
              eq_refl Li eq_refl) as [_ Match].
  split; [split; [reflexivity|]|].
  - apply Mismatch. vm_compute. discriminate.
  - apply (Match eq_refl Sample.key eq_refl eq_refl). reflexivity.
Defined.

(** A file of 4 bytes, and an image under the magic [HGAX]. *)
Lemma bad_structure_sample :
  (run (@verify_image Stub.primitives Sample.pubkey_hex "short.img") Sample.world
   = (Return false, ["❌ Image header too short."])
   /\ failure_kind
        (run (@verify_image Stub.primitives Sample.pubkey_hex "short.img") Sample.world)
      = Some TruncatedHeader)
  /\ (run (@verify_image Stub.primitives Sample.pubkey_hex "magic.img") Sample.world
      = (Return false, ["❌ Bad magic: b'HGAX'"])
      /\ failure_kind
           (run (@verify_image Stub.primitives Sample.pubkey_hex "magic.img") Sample.world)
         = Some BadMagic).
Proof.
  split.
  - refine (proj1 (@image_structure_is_checked_first Stub.primitives
                     Sample.pubkey_hex "short.img" Sample.truncated_image Sample.world _) _).
    + reflexivity.
    + vm_compute; lia.
  - refine (proj2 (@image_structure_is_checked_first Stub.primitives
                     Sample.pubkey_hex "magic.img" Sample.bad_magic_image Sample.world _)
              _ _).
    + reflexivity.
    + vm_compute; lia.
    + vm_compute. discriminate.
Defined.

(** A signed image of the empty payload. *)
Lemma header_only_image_sample :
  List.length Sample.header_only_image = 100
  /\ fst (run (@verify_image Stub.primitives Sample.pubkey_hex "empty.img") Sample.world)
     = Return true.
Proof.
  split; [reflexivity|].
  refine (proj2 (@header_only_image_verdict Stub.primitives Sample.pubkey_hex "empty.img"
                   Sample.header_only_image Sample.world _ _) _).
  - reflexivity.
  - reflexivity.
  - split; [reflexivity|]. split; [reflexivity|].
    exists Sample.key. repeat split; reflexivity.
Defined.

(* ================================================================== *)
(** ** verify_attestation: when it accepts, what escapes, what it reads *)
(* ================================================================== *)

Lemma run_fst {A} (m : Py A) w : fst (run m w) = fst (m w).
Proof. unfold run. now destruct (m w). Qed.

Lemma le_to_N_le_bytes len n : le_to_N (le_bytes len n) = (n mod 256 ^ N.of_nat len)%N.
Proof.
  revert n. induction len as [|len IH]; intros n.
  - cbn [le_bytes le_to_N]. change (256 ^ N.of_nat 0)%N with 1%N. now rewrite N.mod_1_r.
  - cbn [le_bytes le_to_N]. rewrite IH, Nat2N.inj_succ, N.pow_succ_r'.
    assert (B : (n mod 256 < 256)%N) by (apply N.mod_lt; discriminate).
    assert (E : Byte.to_N (byte_of_ascii (ascii_of_N (n mod 256))) = (n mod 256)%N).
    { rewrite <- (N_ascii_embedding (n mod 256)) at 2 by exact B.
      generalize (ascii_of_N (n mod 256)). intros c.
      rewrite <- (ascii_of_byte_of_ascii c) at 2.
      generalize (byte_of_ascii c). intros b. now destruct b. }
    rewrite E.
    now rewrite N.Div0.mod_mul_r.
Qed.

Lemma length_le_bytes len n : List.length (le_bytes len n) = len.
Proof. revert n. induction len; intros n; cbn [le_bytes List.length]; auto. Qed.

Section AttestationBeyond.

Context {P : Primitives}.

(** X1. [verify_attestation] returns [True] only after the primitive has
    accepted the signature, and exactly then when the packet has its 40
    bytes: the key string decodes to 32 bytes, the signature has 64 bytes
    and verifies over the whole packet. *)
Theorem attestation_accepted_iff pubkey_hex packet sig w :
  fst (run (verify_attestation pubkey_hex packet sig) w) = Return true
  <-> exists key,
        bytes_fromhex pubkey_hex = Some key
        /\ signature_valid key packet sig
        /\ 40 <= List.length packet.
Proof.
  rewrite run_fst, verify_attestation_cases. unfold signature_valid.
  destruct (bytes_fromhex pubkey_hex) as [key|].
  2:{ split; [discriminate | now intros (key & K & _)]. }
  destruct (Nat.eqb_spec (List.length key) 32) as [Hk|Hk]; cbn [negb].
  2:{ split; [discriminate|]. intros (key' & K & (Hk' & _) & _). congruence. }
  destruct (Nat.eqb_spec (List.length sig) 64) as [Hs|Hs]; cbn [negb].
  2:{ split; [discriminate|]. intros (key' & K & (_ & Hs' & _) & _). congruence. }
  destruct (ed25519_verify key packet sig) eqn:Hv.
  2:{ split; [discriminate|]. intros (key' & K & (_ & _ & Hv') & _). congruence. }
  destruct (Nat.ltb_spec (List.length packet) 40) as [L|L]; cbn [fst].
  - split; [discriminate|]. intros (_ & _ & _ & L'). lia.
  - split; [|reflexivity]. intros _. exists key. auto.
Qed.

(** X2. The only exception that leaves [verify_attestation] is
    [ValueError], raised before anything is printed, and it is raised
    exactly when the key string does not decode to 32 bytes or the
    signature is not 64 bytes long.  [BadSignatureError] is always caught,
    and the length test keeps [struct.unpack_from] from ever failing. *)
Theorem attestation_raises_only_value_error pubkey_hex packet sig w :
  (forall e,
     fst (run (verify_attestation pubkey_hex packet sig) w) = Raise e ->
     e = ValueError /\ snd (run (verify_attestation pubkey_hex packet sig) w) = [])
  /\ (fst (run (verify_attestation pubkey_hex packet sig) w) = Raise ValueError
      <-> ~ exists key,
            bytes_fromhex pubkey_hex = Some key
            /\ List.length key = 32 /\ List.length sig = 64).
Proof.
  assert (C := verify_attestation_cases pubkey_hex packet sig w).
  destruct (bytes_fromhex pubkey_hex) as [key|].
  2:{ rewrite (run_silent _ C). cbn [fst snd]. split.
      - intros e [= <-]. now split.
      - split; [|reflexivity]. intros _ (key & K & _). discriminate. }
  destruct (Nat.eqb_spec (List.length key) 32) as [Hk|Hk]; cbn [negb] in C.
  2:{ rewrite (run_silent _ C). cbn [fst snd]. split.
      - intros e [= <-]. now split.
      - split; [|reflexivity]. intros _ (key' & K & Hk' & _). congruence. }
  destruct (Nat.eqb_spec (List.length sig) 64) as [Hs|Hs]; cbn [negb] in C.
  2:{ rewrite (run_silent _ C). cbn [fst snd]. split.
      - intros e [= <-]. now split.
      - split; [|reflexivity]. intros _ (key' & K & _ & Hs'). congruence. }
  destruct (ed25519_verify key packet sig);
    [destruct (List.length packet <? 40)%nat|];
    rewrite (run_emit _ C); cbn [fst snd];
    (split; [intros e; discriminate|]);
    (split; [discriminate|]); intros N; elim N; exists key; auto.
Qed.

(** X3. Bytes after offset 40 are signed but never looked at: two accepted
    packets that agree on their first 40 bytes are reported alike. *)
Theorem attestation_report_ignores_trailing_bytes
  pubkey_hex key packet sig packet' sig' w :
  bytes_fromhex pubkey_hex = Some key ->
  signature_valid key packet sig ->
  signature_valid key packet' sig' ->
  40 <= List.length packet ->
  firstn 40 packet' = firstn 40 packet ->
  run (verify_attestation pubkey_hex packet' sig') w
  = run (verify_attestation pubkey_hex packet sig) w.
Proof.
  intros Hkey V V' L E.
  assert (L' : 40 <= List.length packet').
  { assert (H : List.length (firstn 40 packet') = List.length (firstn 40 packet))
      by now rewrite E.
    rewrite !length_firstn in H. lia. }
  rewrite (run_emit _ (@verify_attestation_accepts_any _ _ _ _ _ w Hkey V L)).
  rewrite (run_emit _ (@verify_attestation_accepts_any _ _ _ _ _ w Hkey V' L')).
  unfold attestation_report.
  rewrite <- (slice_firstn packet' 0 (j:=8) (n:=40)) by lia.
  rewrite <- (slice_firstn packet' 8 (j:=40) (n:=40)) by lia.
  rewrite E, !slice_firstn by lia. reflexivity.
Qed.

(** X4. Round trip of the counter and the PCR.  A packet that starts with
    [struct.pack("<Q", n)] and goes on with a 32-byte PCR, then anything,
    is reported, when its signature is valid, with the counter [n] in
    decimal and the PCR in hexadecimal. *)
Theorem packed_counter_is_reported pubkey_hex key n (counter pcr extra sig : bytes) w :
  bytes_fromhex pubkey_hex = Some key ->
  pack_Q n = Some counter ->
  List.length pcr = 32 ->
  signature_valid key (counter ++ pcr ++ extra)%list sig ->
  run (verify_attestation pubkey_hex (counter ++ pcr ++ extra)%list sig) w
  = (Return true,
     [ "✅ Attestation Valid";
       "   Counter : " ++ str_of_N n;
       "   PCR     : " ++ bytes_hex pcr ]).
Proof.
  intros Hkey Hpack Hpcr V. unfold pack_Q in Hpack.
  destruct (N.ltb_spec n (2 ^ 64)) as [B|B]; [|discriminate].
  assert (Ec : counter = le_bytes 8 n) by (symmetry; now injection Hpack).
  subst counter. clear Hpack.
  assert (Lc : List.length (le_bytes 8 n) = 8) by apply length_le_bytes.
  assert (L : 40 <= List.length (le_bytes 8 n ++ pcr ++ extra)%list)
    by (rewrite !length_app; lia).
  rewrite (run_emit _ (@verify_attestation_accepts_any _ _ _ _ _ w Hkey V L)).
  unfold attestation_report.
  rewrite slice_0, (@firstn_prefix _ (le_bytes 8 n) (pcr ++ extra)%list 8 Lc).
  unfold slice. rewrite (@skipn_prefix _ (le_bytes 8 n) (pcr ++ extra)%list 8 Lc).
  change (40 - 8) with 32. rewrite (@firstn_prefix _ pcr extra 32 Hpcr).
  rewrite le_to_N_le_bytes.
  change (256 ^ N.of_nat 8)%N with (2 ^ 64)%N.
  now rewrite N.mod_small.
Qed.

End AttestationBeyond.

(* ================================================================== *)
(** ** verify_image: when it accepts, what escapes, what it reads *)
(* ================================================================== *)

Lemma kind_of_line_image_signature path :
  kind_of_line ("❌ Image signature invalid: " ++ path) = Some SignatureMismatch.
Proof. unfold kind_of_line. cbn. now destruct path. Qed.

(** What a call of [verify_image] takes from the world is the file it is
    given, and what it does to the world is to print. *)
Lemma verify_image_effect `{Primitives} pubkey_hex image_path w1 w2 :
  files w1 image_path = files w2 image_path ->
  exists r lines,
    verify_image pubkey_hex image_path w1 = (r, emit w1 lines)
    /\ verify_image pubkey_hex image_path w2 = (r, emit w2 lines).
Proof.
  intros E. rewrite !verify_image_cases, <- E.
  destruct (files w1 image_path) as [content|].
  2:{ exists (Raise OSError), []. now rewrite !emit_nil. }
  destruct (List.length content <? 100)%nat; [eauto|].
  destruct (negb (bytes_eqb (slice content 0 4) (b_lit "HGAT"))); [eauto|].
  destruct (negb (bytes_eqb (sha256 (skipn 100 content)) (slice content 68 100)));
    [eauto|].
  destruct (bytes_fromhex pubkey_hex) as [key|].
  2:{ exists (Raise ValueError), []. now rewrite !emit_nil. }
  destruct (negb (List.length key =? 32)%nat).
  { exists (Raise ValueError), []. now rewrite !emit_nil. }
  destruct (ed25519_verify key (slice content 68 100) (slice content 4 68)); eauto.
Qed.

Section ImageBeyond.

Context {P : Primitives}.

(** X5. [verify_image] returns [True] only for a readable file of at least
    100 bytes that starts with [HGAT], whose bytes from 100 on hash to
    bytes 68-99, and whose bytes 4-67 the primitive accepts as a signature
    of bytes 68-99 under a key string that decodes to 32 bytes; and for
    every such file it does. *)
Theorem image_accepted_iff pubkey_hex image_path w :
  fst (run (verify_image pubkey_hex image_path) w) = Return true
  <-> exists content key,
        files w image_path = Some content
        /\ 100 <= List.length content
        /\ firstn 4 content = b_lit "HGAT"
        /\ sha256 (skipn 100 content) = slice content 68 100
        /\ bytes_fromhex pubkey_hex = Some key
        /\ List.length key = 32
        /\ ed25519_verify key (slice content 68 100) (slice content 4 68) = true.
Proof.
  rewrite run_fst, verify_image_cases.
  destruct (files w image_path) as [content|].
  2:{ split; [discriminate | now intros (c & k & F & _)]. }
  destruct (Nat.ltb_spec (List.length content) 100) as [L|L].
  { split; [discriminate|]. intros (c & k & [= <-] & L' & _). lia. }
  rewrite slice_0.
  destruct (bytes_eqb (firstn 4 content) (b_lit "HGAT")) eqn:M; cbn [negb].
  2:{ apply bytes_eqb_neq in M. split; [discriminate|].
      intros (c & k & [= <-] & _ & M' & _). contradiction. }
  apply bytes_eqb_eq in M.
  destruct (bytes_eqb (sha256 (skipn 100 content)) (slice content 68 100)) eqn:H;
    cbn [negb].
  2:{ apply bytes_eqb_neq in H. split; [discriminate|].
      intros (c & k & [= <-] & _ & _ & H' & _). contradiction. }
  apply bytes_eqb_eq in H.
  destruct (bytes_fromhex pubkey_hex) as [key|].
  2:{ split; [discriminate|]. intros (c & k & _ & _ & _ & _ & K & _). discriminate. }
  destruct (Nat.eqb_spec (List.length key) 32) as [Hk|Hk]; cbn [negb].
  2:{ split; [discriminate|].
      intros (c & k & _ & _ & _ & _ & [= <-] & Hk' & _). contradiction. }
  destruct (ed25519_verify key (slice content 68 100) (slice content 4 68)) eqn:Hv;
    cbn [fst].
  - split; [|reflexivity]. intros _. exists content, key. auto 10.
  - split; [discriminate|].
    intros (c & k & [= <-] & _ & _ & _ & [= <-] & _ & Hv'). congruence.
Qed.


(** X7. [verify_image] reads nothing but the file it is given and writes
    nothing but its lines: in two worlds that hold the same content under
    the path, whatever else they hold and whatever was printed before, the
    call shows the same outcome and prints the same lines, and it leaves
    each world as it found it but for those lines. *)
Theorem verify_image_reads_only_its_file pubkey_hex image_path w1 w2 :
  files w1 image_path = files w2 image_path ->
  run (verify_image pubkey_hex image_path) w1
  = run (verify_image pubkey_hex image_path) w2
  /\ snd (verify_image pubkey_hex image_path w1)
     = emit w1 (snd (run (verify_image pubkey_hex image_path) w1)).
Proof.
  intros E.
  destruct (verify_image_effect pubkey_hex image_path w1 w2 E) as (r & lines & E1 & E2).
  rewrite (run_emit _ E1), (run_emit _ E2), E1. now split.
Qed.

(** X8. An image that passes the header, magic and digest checks but whose
    signature field the primitive rejects under a good key is refused with
    [False] and the signature-invalid line, which names the file. *)
Theorem image_with_rejected_signature pubkey_hex image_path key content w :
  files w image_path = Some content ->
  100 <= List.length content ->
  firstn 4 content = b_lit "HGAT" ->
  sha256 (skipn 100 content) = slice content 68 100 ->
  bytes_fromhex pubkey_hex = Some key ->
  signature_invalid key (slice content 68 100) (slice content 4 68) ->
  run (verify_image pubkey_hex image_path) w
  = (Return false, ["❌ Image signature invalid: " ++ image_path])
  /\ failure_kind (run (verify_image pubkey_hex image_path) w) = Some SignatureMismatch.
Proof.
  intros F L M H K (Hk & _ & Hv).
  assert (C := verify_image_cases pubkey_hex image_path w).
  apply Nat.ltb_ge in L. apply bytes_eqb_eq in M, H.
  rewrite F, L, slice_0, M, H, K, Hk, Hv in C. cbn [negb Nat.eqb] in C.
  rewrite (run_emit _ C). split; [reflexivity|].
  apply kind_of_line_image_signature.
Qed.

End ImageBeyond.

(* ================================================================== *)
(** ** Refusals and their diagnostics *)
(* ================================================================== *)


Section Refusals.

Context {P : Primitives}.


End Refusals.

(* ================================================================== *)
(** ** The command line: the properties *)
(* ================================================================== *)

Lemma bytes_fromhex_length n :
  forall s b,
    String.length s <= n -> bytes_fromhex s = Some b -> 2 * List.length b <= String.length s.
Proof.
  induction n as [|n IH]; intros s b L H.
  - destruct s; [|cbn in L; lia]. injection H as <-. cbn. lia.
  - destruct s as [|c rest]; [injection H as <-; cbn; lia|].
    cbn [bytes_fromhex] in H. cbn [String.length] in L |- *.
    destruct (is_space c).
    + assert (B := IH rest b ltac:(lia) H). lia.
    + destruct rest as [|d rest']; [discriminate|].
      destruct (hex_value c); [|discriminate].
      destruct (hex_value d); [|discriminate].
      destruct (bytes_fromhex rest') as [bs|] eqn:E; [|discriminate].
      injection H as <-. cbn [String.length List.length] in L |- *.
      assert (B := IH rest' bs ltac:(lia) E). lia.
Qed.

Section CommandLine.

Context {P : Primitives}.

Lemma main_usage argv w :
  List.length argv < 2 -> main argv w = (Return 1, emit w usage).
Proof.
  intros L. unfold main. apply Nat.ltb_lt in L. rewrite L.
  unfold sys_exit, usage, emit. py_unfold. cbn [stdout files].
  now rewrite <- !app_assoc.
Qed.

Lemma main_invalid argv w :
  2 <= List.length argv ->
  ~ (argv_at argv 1 = "attest" /\ List.length argv = 5) ->
  ~ (argv_at argv 1 = "image" /\ List.length argv = 4) ->
  main argv w = (Return 1, emit w ["Invalid arguments."]).
Proof.
  intros L NA NI. unfold main. apply Nat.ltb_ge in L. rewrite L.
  destruct (String.eqb_spec (argv_at argv 1) "attest") as [A|A];
    destruct (Nat.eqb_spec (List.length argv) 5) as [A5|A5]; cbn [andb];
    try (elim NA; now split);
    (destruct (String.eqb_spec (argv_at argv 1) "image") as [I|I];
     destruct (Nat.eqb_spec (List.length argv) 4) as [I4|I4]; cbn [andb];
     try (elim NI; now split));
    reflexivity.
Qed.

Lemma main_attest prog pubkey_hex packet_hex sig_hex w :
  main [prog; "attest"; pubkey_hex; packet_hex; sig_hex] w
  = match bytes_fromhex packet_hex, bytes_fromhex sig_hex with
    | Some packet, Some sig =>
        match verify_attestation pubkey_hex packet sig w with
        | (Return ok, w') => (Return (if ok then 0 else 1), w')
        | (Raise e, w') => (Raise e, w')
        end
    | _, _ => (Raise ValueError, w)
    end.
Proof.
  unfold main. cbn [List.length Nat.ltb Nat.leb argv_at nth].
  change ("attest" =? "attest") with true. cbn [Nat.eqb andb].
  unfold bind at 1, or_raise at 1.
  destruct (bytes_fromhex packet_hex) as [packet|]; [|reflexivity].
  unfold ret at 1, bind at 1, or_raise at 1.
  destruct (bytes_fromhex sig_hex) as [sig|]; [|reflexivity].
  unfold ret at 1, bind at 1, sys_exit, ret.
  now destruct (verify_attestation pubkey_hex packet sig w) as [[ok|e] w'].
Qed.

Lemma main_image prog pubkey_hex image_path w :
  main [prog; "image"; pubkey_hex; image_path] w
  = match verify_image pubkey_hex image_path w with
    | (Return ok, w') => (Return (if ok then 0 else 1), w')
    | (Raise e, w') => (Raise e, w')
    end.
Proof.
  unfold main. cbn [List.length Nat.ltb Nat.leb argv_at nth].
  change ("image" =? "attest") with false. change ("image" =? "image") with true.
  cbn [Nat.eqb andb].
  unfold bind at 1, sys_exit, ret.
  now destruct (verify_image pubkey_hex image_path w) as [[ok|e] w'].
Qed.

(** The shapes of [sys.argv]. *)
Lemma argv_shape (argv : list string) :
  List.length argv < 2
  \/ (exists prog pubkey_hex packet_hex sig_hex,
        argv = [prog; "attest"; pubkey_hex; packet_hex; sig_hex])
  \/ (exists prog pubkey_hex image_path, argv = [prog; "image"; pubkey_hex; image_path])
  \/ (2 <= List.length argv
      /\ ~ (argv_at argv 1 = "attest" /\ List.length argv = 5)
      /\ ~ (argv_at argv 1 = "image" /\ List.length argv = 4)).
Proof.
  destruct argv as [|a0 [|a1 [|a2 [|a3 [|a4 [|a5 rest]]]]]]; cbn [List.length].
  1,2: left; lia.
  1,2,5: right; right; right; (split; [lia|]); split; intros (_ & L); lia.
  - destruct (String.eqb_spec a1 "image") as [->|I].
    + right; right; left. eauto.
    + right; right; right. split; [lia|]. split; [intros (_ & L); lia|].
      intros (I' & _). now elim I.
  - destruct (String.eqb_spec a1 "attest") as [->|A].
    + right; left. eauto.
    + right; right; right. split; [lia|]. split; [|intros (_ & L); lia].
      intros (A' & _). now elim A.
Qed.

(** X10. The exit code is 0 only after a verification that returned
    [True]: of an attestation whose packet and signature arguments decode
    from hexadecimal, or of an image; and every such verification ends
    with code 0. *)
Theorem main_exits_zero_iff_verified argv w :
  fst (run (main argv) w) = Return 0
  <-> (exists prog pubkey_hex packet_hex sig_hex packet sig,
         argv = [prog; "attest"; pubkey_hex; packet_hex; sig_hex]
         /\ bytes_fromhex packet_hex = Some packet
         /\ bytes_fromhex sig_hex = Some sig
         /\ fst (run (verify_attestation pubkey_hex packet sig) w) = Return true)
      \/ (exists prog pubkey_hex image_path,
            argv = [prog; "image"; pubkey_hex; image_path]
            /\ fst (run (verify_image pubkey_hex image_path) w) = Return true).
Proof.
  rewrite run_fst.
  destruct (argv_shape argv)
    as [L | [(prog & k & p & s & ->) | [(prog & k & path & ->) | (L & NA & NI)]]].
  - rewrite (@main_usage argv w L). cbn [fst]. split; [discriminate|].
    intros [(? & ? & ? & ? & ? & ? & -> & _) | (? & ? & ? & -> & _)]; cbn in L; lia.
  - rewrite main_attest. split.
    + intros H. left. exists prog, k, p, s.
      destruct (bytes_fromhex p) as [packet|]; [|discriminate H].
      destruct (bytes_fromhex s) as [sig|]; [|discriminate H].
      exists packet, sig. repeat split. rewrite run_fst.
      destruct (verify_attestation k packet sig w) as [[[|]|e] w'];
        cbn [fst] in H |- *; try discriminate H; reflexivity.
    + intros [(? & ? & ? & ? & packet & sig & E & Hp & Hs & V) | (? & ? & ? & E & _)];
        [|discriminate E].
      injection E as <- <- <- <-. rewrite Hp, Hs. rewrite run_fst in V.
      destruct (verify_attestation k packet sig w) as [[[|]|e] w'];
        cbn [fst] in V |- *; try discriminate V; reflexivity.
  - rewrite main_image. split.
    + intros H. right. exists prog, k, path. split; [reflexivity|]. rewrite run_fst.
      destruct (verify_image k path w) as [[[|]|e] w'];
        cbn [fst] in H |- *; try discriminate H; reflexivity.
    + intros [(? & ? & ? & ? & ? & ? & E & _) | (? & ? & ? & E & V)];
        [discriminate E|].
      injection E as <- <- <-. rewrite run_fst in V.
      destruct (verify_image k path w) as [[[|]|e] w'];
        cbn [fst] in V |- *; try discriminate V; reflexivity.
  - rewrite (@main_invalid argv w L NA NI). cbn [fst]. split; [discriminate|].
    intros [(? & ? & ? & ? & ? & ? & -> & _) | (? & ? & ? & -> & _)].
    + elim NA. now split.
    + elim NI. now split.
Qed.

End CommandLine.

Section CommandLineRuns.

Context {P : Primitives}.

(** X11. Round trip through the command line.  A key, a packet of at least
    40 bytes and a valid signature, each written in hexadecimal as
    [bytes.hex()] does, make [attest] print the report of the packet and
    exit with code 0. *)
Theorem main_attest_round_trip prog key packet sig w :
  signature_valid key packet sig ->
  40 <= List.length packet ->
  run (main [prog; "attest"; bytes_hex key; bytes_hex packet; bytes_hex sig]) w
  = (Return 0,
     [ "✅ Attestation Valid";
       "   Counter : " ++ str_of_N (le_to_N (firstn 8 packet));
       "   PCR     : " ++ bytes_hex (firstn 32 (skipn 8 packet)) ]).
Proof.
  intros V L. apply run_emit.
  rewrite main_attest, !bytes_fromhex_hex.
  now rewrite (@verify_attestation_accepts_any _ _ _ _ _ w (bytes_fromhex_hex key) V L).
Qed.

(** X12. A packet or signature argument that is not hexadecimal ends
    [attest] with an uncaught [ValueError], status 1, before the key is
    looked at and with nothing printed: no diagnostic line, no verdict. *)
Theorem main_undecodable_argument_raises prog pubkey_hex packet_hex sig_hex w :
  bytes_fromhex packet_hex = None \/ bytes_fromhex sig_hex = None ->
  run (main [prog; "attest"; pubkey_hex; packet_hex; sig_hex]) w = (Raise ValueError, [])
  /\ exit_status (fst (run (main [prog; "attest"; pubkey_hex; packet_hex; sig_hex]) w)) = 1.
Proof.
  intros H.
  assert (E : run (main [prog; "attest"; pubkey_hex; packet_hex; sig_hex]) w
              = (Raise ValueError, [])).
  { apply run_silent. rewrite main_attest.
    destruct H as [-> | ->]; [reflexivity|].
    now destruct (bytes_fromhex packet_hex). }
  now rewrite E.
Qed.

(** X13. A key string of fewer than 64 characters cannot decode to 32
    bytes: [verify_attestation] then raises [ValueError] whatever the
    packet and the signature, and never returns a verdict. *)
Theorem short_key_string_raises pubkey_hex packet sig w :
  String.length pubkey_hex < 64 ->
  run (verify_attestation pubkey_hex packet sig) w = (Raise ValueError, []).
Proof.
  intros L. apply run_silent. rewrite verify_attestation_cases.
  destruct (bytes_fromhex pubkey_hex) as [key|] eqn:K; [|reflexivity].
  assert (B := @bytes_fromhex_length _ pubkey_hex key (le_n _) K).
  destruct (Nat.eqb_spec (List.length key) 32) as [Hk|Hk]; [lia | reflexivity].
Qed.

End CommandLineRuns.

(* ================================================================== *)
(** ** These properties on sample inputs *)
(* ================================================================== *)

(** Two reserved bytes after the sample packet change nothing in the
    report. *)
Lemma trailing_bytes_sample :
  firstn 40 Cli.long_packet = firstn 40 Sample.packet
  /\ run (@verify_attestation Stub.primitives Sample.pubkey_hex Cli.long_packet
            (Stub.sign Sample.key Cli.long_packet))
       Sample.world
     = run (@verify_attestation Stub.primitives Sample.pubkey_hex Sample.packet
              Sample.good_sig)
         Sample.world.
Proof.
  split; [reflexivity|].
  refine (@attestation_report_ignores_trailing_bytes Stub.primitives
            Sample.pubkey_hex Sample.key Sample.packet Sample.good_sig
            Cli.long_packet (Stub.sign Sample.key Cli.long_packet) Sample.world
            _ _ _ _ _).
  - reflexivity.
  - repeat split; reflexivity.
  - repeat split; reflexivity.
  - vm_compute; lia.
  - reflexivity.
Defined.

(** The largest counter. *)
Lemma packed_counter_sample :
  pack_Q 18446744073709551615 = Some (repeat xff 8)
  /\ run (@verify_attestation Stub.primitives Sample.pubkey_hex Cli.max_counter_packet
            (Stub.sign Sample.key Cli.max_counter_packet))
       Sample.world
     = (Return true,
        [ "✅ Attestation Valid";
          "   Counter : 18446744073709551615";
          "   PCR     : 1111111111111111111111111111111111111111111111111111111111111111" ]).
Proof.
  split; [reflexivity|].
  refine (@packed_counter_is_reported Stub.primitives Sample.pubkey_hex Sample.key
            18446744073709551615 (repeat xff 8) (repeat x11 32) []
            (Stub.sign Sample.key Cli.max_counter_packet) Sample.world _ _ _ _).
  - reflexivity.
  - reflexivity.
  - reflexivity.
  - repeat split; reflexivity.
Defined.

(** The same image in two worlds that differ in everything else. *)
Lemma same_file_sample :
  stdout Sample.world <> stdout Cli.world
  /\ files Sample.world "tampered.img" <> files Cli.world "tampered.img"
  /\ (run (@verify_image Stub.primitives Sample.pubkey_hex "boot.img") Sample.world
      = run (@verify_image Stub.primitives Sample.pubkey_hex "boot.img") Cli.world
      /\ snd (@verify_image Stub.primitives Sample.pubkey_hex "boot.img" Sample.world)
         = emit Sample.world
             (snd (run (@verify_image Stub.primitives Sample.pubkey_hex "boot.img")
                     Sample.world))).
Proof.
  split; [discriminate|]. split; [discriminate|].
  refine (@verify_image_reads_only_its_file Stub.primitives Sample.pubkey_hex
            "boot.img" Sample.world Cli.world _).
  reflexivity.
Defined.

(** An image with a good digest under a signature field of 64 bytes
    [0xFF]. *)
Lemma forged_image_sample :
  run (@verify_image Stub.primitives Sample.pubkey_hex "forged.img") Cli.world
  = (Return false, ["❌ Image signature invalid: forged.img"])
  /\ failure_kind
       (run (@verify_image Stub.primitives Sample.pubkey_hex "forged.img") Cli.world)
     = Some SignatureMismatch.
Proof.
  refine (@image_with_rejected_signature Stub.primitives Sample.pubkey_hex
            "forged.img" Sample.key Cli.forged_image Cli.world _ _ _ _ _ _).
  - reflexivity.
  - vm_compute; lia.
  - reflexivity.
  - reflexivity.
  - reflexivity.
  - repeat split; reflexivity.
Defined.

(** The sample packet given on the command line. *)
Lemma main_attest_sample :
  bytes_hex Sample.packet
  = "0500000000000000aaaaaaaaaaaaaaaaaaaaaaaaaaaaaaaaaaaaaaaaaaaaaaaaaaaaaaaaaaaaaaaa"
  /\ run (@main Stub.primitives
            [Cli.prog; "attest"; bytes_hex Sample.key; bytes_hex Sample.packet;
             bytes_hex Sample.good_sig])
       Cli.world
     = (Return 0,
        [ "✅ Attestation Valid";
          "   Counter : 5";
          "   PCR     : aaaaaaaaaaaaaaaaaaaaaaaaaaaaaaaaaaaaaaaaaaaaaaaaaaaaaaaaaaaaaaaa" ]).
Proof.
  split; [reflexivity|].
  refine (@main_attest_round_trip Stub.primitives Cli.prog Sample.key Sample.packet
            Sample.good_sig Cli.world _ _).
  - repeat split; reflexivity.
  - vm_compute; lia.
Defined.

(** A packet argument with a letter that is no hexadecimal digit, and one
    with a digit left alone. *)
Lemma main_undecodable_argument_sample :
  (run (@main Stub.primitives
          [Cli.prog; "attest"; Sample.pubkey_hex; "0g"; bytes_hex Sample.good_sig])
     Cli.world
   = (Raise ValueError, [])
   /\ exit_status
        (fst (run (@main Stub.primitives
                     [Cli.prog; "attest"; Sample.pubkey_hex; "0g";
                      bytes_hex Sample.good_sig])
                Cli.world))
      = 1)
  /\ (run (@main Stub.primitives
             [Cli.prog; "attest"; Sample.pubkey_hex; bytes_hex Sample.packet; "abc"])
        Cli.world
      = (Raise ValueError, [])
      /\ exit_status
           (fst (run (@main Stub.primitives
                        [Cli.prog; "attest"; Sample.pubkey_hex; bytes_hex Sample.packet;
                         "abc"])
                   Cli.world))
         = 1).
Proof.
  split.
  - refine (@main_undecodable_argument_raises Stub.primitives Cli.prog
              Sample.pubkey_hex "0g" (bytes_hex Sample.good_sig) Cli.world _).
    left. reflexivity.
  - refine (@main_undecodable_argument_raises Stub.primitives Cli.prog
              Sample.pubkey_hex (bytes_hex Sample.packet) "abc" Cli.world _).
    right. reflexivity.
Defined.

(** A key string one byte short. *)
Lemma short_key_string_sample :
  run (@verify_attestation Stub.primitives
         "000102030405060708090a0b0c0d0e0f101112131415161718191a1b1c1d1e"
         Sample.packet Sample.good_sig)
    Sample.world
  = (Raise ValueError, []).
Proof.
  refine (@short_key_string_raises Stub.primitives
            "000102030405060708090a0b0c0d0e0f101112131415161718191a1b1c1d1e"
            Sample.packet Sample.good_sig Sample.world _).
  vm_compute; lia.
Defined.
